(** * musicpal: the packaging script [setup.py]

    The repository's only source file is [setup.py].  It reads [README.md]
    in text mode and then calls [setuptools.setup] once, with a fixed set of
    keyword arguments.  This development embeds the script as a computation
    in a state-and-exception monad over a small world (file system, open
    file objects, the distributions handed to [setup]) and proves the
    properties of the metadata and of the script's control flow. *)

From Stdlib Require Import String Ascii List Arith Lia Bool.
From stdpp Require Import base option strings gmap.
Import ListNotations.

Local Open Scope string_scope.
Local Open Scope list_scope.

(** ** Python values that occur as keyword arguments of [setup] *)

Inductive value : Type :=
| VStr (s : string)
| VList (l : list string)
| VDict (d : list (string * string)).

(** The keyword arguments of one call, in the order they are written. *)
Definition kwargs : Type := list (string * value).

Fixpoint kw_lookup (k : string) (kw : kwargs) : option value :=
  match kw with
  | [] => None
  | (k', v) :: rest => if String.eqb k k' then Some v else kw_lookup k rest
  end.

Definition kw_str (k : string) (kw : kwargs) : option string :=
  match kw_lookup k kw with
  | Some (VStr s) => Some s
  | _ => None
  end.

Definition kw_list (k : string) (kw : kwargs) : option (list string) :=
  match kw_lookup k kw with
  | Some (VList l) => Some l
  | _ => None
  end.


(** ** Exceptions, files and the world *)

Inductive exn : Type :=
| FileNotFoundError (path : string)
| IsADirectoryError (path : string)
| PermissionError (path : string)
| UnicodeDecodeError
| OSError.

(** What a regular file holds, seen through the locale's text decoding:
    text, bytes that do not decode, or a medium that fails on read. *)
Inductive file_data : Type :=
| Text (t : string)
| Undecodable
| IOFault.

Inductive node : Type :=
| RegularFile (data : file_data)
| Unreadable (data : file_data)
| Directory.

Record world : Type := MkWorld {
  fs : gmap string node;
  open_files : list string;
  dists : list kwargs
}.

(** ** The monad of script statements: state plus exceptions *)

Inductive result (A : Type) : Type :=
| Ok (a : A)
| Raise (e : exn).
Arguments Ok {A} a.
Arguments Raise {A} e.

Definition M (A : Type) : Type := world -> result A * world.

Definition ret {A} (a : A) : M A := fun w => (Ok a, w).

Definition raise {A} (e : exn) : M A := fun w => (Raise e, w).

Definition bind {A B} (m : M A) (k : A -> M B) : M B :=
  fun w =>
    match m w with
    | (Ok a, w') => k a w'
    | (Raise e, w') => (Raise e, w')
    end.

Notation "'let*' x ':=' m 'in' k" := (bind m (fun x => k))
  (at level 10, x name, m at level 100, k at level 200).

(** ** [open(path, "r")], [fh.read()] and the [with] statement *)

Definition CR : ascii := "013"%char.
Definition LF : ascii := "010"%char.

(** Text mode with the default [newline=None]: on input, ["\r\n"] and a
    lone ["\r"] are both handed to the caller as ["\n"]. *)
Fixpoint universal_newlines (s : string) : string :=
  match s with
  | EmptyString => EmptyString
  | String c rest =>
      if Ascii.eqb c CR then
        match rest with
        | String c' rest' =>
            if Ascii.eqb c' LF
            then String LF (universal_newlines rest')
            else String LF (universal_newlines rest)
        | EmptyString => String LF EmptyString
        end
      else String c (universal_newlines rest)
  end.

Record file_object : Type := MkFile { fh_name : string }.

(** [open(path, "r")]: the file object, with the path noted as open. *)
Definition open_r (path : string) : M file_object :=
  fun w =>
    match fs w !! path with
    | None => (Raise (FileNotFoundError path), w)
    | Some Directory => (Raise (IsADirectoryError path), w)
    | Some (Unreadable _) => (Raise (PermissionError path), w)
    | Some (RegularFile _) =>
        (Ok (MkFile path),
         MkWorld (fs w) (path :: open_files w) (dists w))
    end.

(** [fh.read()] on a freshly opened text file: the whole decoded text. *)
Definition read_data (d : file_data) : result string :=
  match d with
  | Text t => Ok (universal_newlines t)
  | Undecodable => Raise UnicodeDecodeError
  | IOFault => Raise OSError
  end.

Definition fh_read (fh : file_object) : M string :=
  fun w =>
    match fs w !! fh_name fh with
    | Some (RegularFile d) => (read_data d, w)
    | _ => (Raise OSError, w)
    end.

Fixpoint remove_first (p : string) (l : list string) : list string :=
  match l with
  | [] => []
  | q :: rest => if String.eqb p q then rest else q :: remove_first p rest
  end.

Definition fh_close (fh : file_object) (w : world) : world :=
  MkWorld (fs w) (remove_first (fh_name fh) (open_files w)) (dists w).

(** [with open(path, "r") as fh: body]: the file is closed on the way out,
    whether the body returned or raised; an exception of the body goes on
    to the caller. *)
Definition with_open_r {A} (path : string) (body : file_object -> M A) : M A :=
  fun w =>
    match open_r path w with
    | (Raise e, w1) => (Raise e, w1)
    | (Ok fh, w1) =>
        match body fh w1 with
        | (r, w2) => (r, fh_close fh w2)
        end
    end.

(** ** The call of [setup] *)

(** The call hands the metadata to setuptools; the world records the
    arguments of the call.  What setuptools does with them afterwards (the
    commands of the command line, the files they write, the search for the
    version) is not part of the script and not modelled: of [setup], only
    the fact and the arguments of the call are meant. *)
Definition setup (kw : kwargs) : M unit :=
  fun w => (Ok tt, MkWorld (fs w) (open_files w) (dists w ++ [kw])).

(** The keyword arguments of the script's call, lines 9 to 26. *)
Definition setup_kwargs (long_description : string) : kwargs :=
  [ ("name", VStr "musicpal");
    ("author", VStr "Joerg Mechnich");
    ("author_email", VStr "joerg.mechnich@gmail.com");
    ("license", VStr "GNU GPLv3");
    ("description",
       VStr "Command line interface for remote controlling a Freecom MusicPal");
    ("long_description", VStr long_description);
    ("long_description_content_type", VStr "text/markdown");
    ("url", VStr "https://github.com/jmechnich/musicpal");
    ("scripts", VList ["musicpal"]);
    ("use_scm_version", VDict [("local_scheme", "no-local-version")]);
    ("setup_requires", VList ["setuptools_scm"]);
    ("install_requires", VList ["beautifulsoup4"; "lxml"; "requests"]);
    ("classifiers",
       VList [ "Programming Language :: Python :: 3";
               "License :: OSI Approved :: GNU General Public License v3 (GPLv3)";
               "Operating System :: POSIX :: Linux" ]);
    ("python_requires", VStr ">=3.8") ].

(** ** The script *)

Definition README : string := "README.md".

Definition setup_py : M unit :=
  let* long_description := with_open_r README (fun fh => fh_read fh) in
  setup (setup_kwargs long_description).

(** ** Strings *)

Fixpoint string_mem (c : ascii) (s : string) : bool :=
  match s with
  | EmptyString => false
  | String c' rest => Ascii.eqb c c' || string_mem c rest
  end.

(** [contains p s]: [p] occurs in [s] as a contiguous substring. *)
Fixpoint contains (p s : string) : bool :=
  match s with
  | EmptyString => String.prefix p EmptyString
  | String _ rest => String.prefix p s || contains p rest
  end.

(** ** Version specifiers of [python_requires]

    The installer reads [python_requires] as a version specifier and tests
    the running interpreter's (major, minor, micro) against it.  Such a
    version is a final release, for which the comparison operators compare
    release tuples, a shorter tuple being padded with zeros. *)

Module Specifier.

Inductive op : Type := Ge | Le | Gt | Lt | Equal | NotEqual.

Definition parse_op (s : string) : option (op * string) :=
  match s with
  | String ">" (String "=" r) => Some (Ge, r)
  | String "<" (String "=" r) => Some (Le, r)
  | String "=" (String "=" r) => Some (Equal, r)
  | String "!" (String "=" r) => Some (NotEqual, r)
  | String ">" r => Some (Gt, r)
  | String "<" r => Some (Lt, r)
  | _ => None
  end.

Definition digit (c : ascii) : option nat :=
  let n := nat_of_ascii c in
  if Nat.leb 48 n && Nat.leb n 57 then Some (n - 48)%nat else None.

(** Dotted decimal numbers: [cur] is the component being read, [acc] the
    finished ones, last first. *)
Fixpoint parse_release_from (s : string) (cur : option nat) (acc : list nat)
  : option (list nat) :=
  match s with
  | EmptyString =>
      match cur with
      | Some n => Some (rev (n :: acc))
      | None => None
      end
  | String c rest =>
      if Ascii.eqb c "."
      then match cur with
           | Some n => parse_release_from rest None (n :: acc)
           | None => None
           end
      else match digit c with
           | Some d =>
               parse_release_from rest
                 (Some (10 * match cur with Some n => n | None => 0 end + d)%nat) acc
           | None => None
           end
  end.

Definition parse_release (s : string) : option (list nat) :=
  parse_release_from s None [].

Definition parse (s : string) : option (op * list nat) :=
  match parse_op s with
  | Some (o, r) =>
      match parse_release r with
      | Some rel => Some (o, rel)
      | None => None
      end
  | None => None
  end.

Fixpoint all_zero (l : list nat) : bool :=
  match l with
  | [] => true
  | x :: rest => Nat.eqb x 0 && all_zero rest
  end.

Fixpoint release_compare (a b : list nat) : comparison :=
  match a with
  | [] => if all_zero b then Eq else Datatypes.Lt
  | x :: a' =>
      match b with
      | [] => if all_zero a then Eq else Datatypes.Gt
      | y :: b' =>
          match Nat.compare x y with
          | Eq => release_compare a' b'
          | c => c
          end
      end
  end.

Definition holds (o : op) (c : comparison) : bool :=
  match o, c with
  | Ge, Datatypes.Lt => false
  | Ge, _ => true
  | Le, Datatypes.Gt => false
  | Le, _ => true
  | Gt, Datatypes.Gt => true
  | Gt, _ => false
  | Lt, Datatypes.Lt => true
  | Lt, _ => false
  | Equal, Eq => true
  | Equal, _ => false
  | NotEqual, Eq => false
  | NotEqual, _ => true
  end.

(** [Some true]: the version is accepted; [Some false]: refused;
    [None]: the specifier does not parse. *)
Definition accepts (spec : string) (version : list nat) : option bool :=
  match parse spec with
  | Some (o, rel) => Some (holds o (release_compare version rel))
  | None => None
  end.

End Specifier.

(** The installer's test of an interpreter version against a distribution:
    no [python_requires] keyword means no constraint. *)
Definition python_ok (kw : kwargs) (major minor micro : nat) : option bool :=
  match kw_lookup "python_requires" kw with
  | None => Some true
  | Some (VStr spec) => Specifier.accepts spec [major; minor; micro]
  | Some _ => None
  end.

(** ** Versions derived by setuptools_scm

    With [use_scm_version] set, setuptools_scm looks for the version in the
    checkout and formats it as the main part, given by the version scheme,
    followed by the local part, given by the local scheme.  The script
    names a local scheme and leaves the version scheme at the library's
    default.  The library is not part of the repository: its version
    scheme is a parameter of what follows, and its local schemes are
    written after its rules. *)

Module Scm.

(** What the library knows of a checkout: the version of the latest tag,
    the commits since, the abbreviated commit id if any, uncommitted
    changes, and the current time as a date of eight digits and as a
    timestamp of fourteen. *)
Record scm_version : Type := MkScm {
  tag : string;
  distance : nat;
  node : option string;
  dirty : bool;
  date : string;
  timestamp : string
}.

(** No version to be found; a version scheme that cannot work on the
    tag; a name that is no local scheme. *)
Inductive error : Type :=
| LookupError
| SchemeError
| UnknownScheme (name : string).

Inductive outcome : Type :=
| Version (s : string)
| Failed (e : error).

(** Where the version can come from: nowhere, when the tree is neither a
    checkout nor an unpacked source distribution; a version fixed
    beforehand, by the environment or by the PKG-INFO of a source
    distribution, which is used as it stands; or a checkout. *)
Inductive source : Type :=
| NotACheckout
| Preformatted (version : string)
| Checkout (v : scm_version).

Definition exact (v : scm_version) : bool :=
  Nat.eqb (distance v) 0 && negb (dirty v).

Definition format_choice (v : scm_version) (clean dirty_fmt : string) : string :=
  if dirty v then dirty_fmt else clean.

(** The local schemes. *)
Definition format_local_with_time (v : scm_version) (time : string) : string :=
  match node v with
  | Some n =>
      if exact v then format_choice v "" ("+d" ++ time)
      else format_choice v ("+" ++ n) ("+" ++ n ++ ".d" ++ time)
  | None => format_choice v "" ("+d" ++ time)
  end.

Definition get_local_node_and_date (v : scm_version) : string :=
  format_local_with_time v (date v).

Definition get_local_node_and_timestamp (v : scm_version) : string :=
  format_local_with_time v (timestamp v).

Definition get_local_dirty_tag (v : scm_version) : string :=
  format_choice v "" "+dirty".

Definition get_no_local_node (_ : scm_version) : string := "".

Definition local_scheme_named (name : string) : option (scm_version -> string) :=
  if String.eqb name "node-and-date" then Some get_local_node_and_date
  else if String.eqb name "node-and-timestamp"
  then Some get_local_node_and_timestamp
  else if String.eqb name "dirty-tag" then Some get_local_dirty_tag
  else if String.eqb name "no-local-version" then Some get_no_local_node
  else None.

Fixpoint assoc (k : string) (d : list (string * string)) : option string :=
  match d with
  | [] => None
  | (k', x) :: rest => if String.eqb k k' then Some x else assoc k rest
  end.

Definition DEFAULT_LOCAL_SCHEME : string := "node-and-date".

Definition local_scheme_of (cfg : list (string * string)) : string :=
  match assoc "local_scheme" cfg with
  | Some n => n
  | None => DEFAULT_LOCAL_SCHEME
  end.

(** The main part first, then the local part after it. *)
Definition format_version (version_scheme : scm_version -> outcome)
    (cfg : list (string * string)) (v : scm_version) : outcome :=
  match version_scheme v with
  | Failed e => Failed e
  | Version main =>
      match local_scheme_named (local_scheme_of cfg) with
      | Some local => Version (main ++ local v)%string
      | None => Failed (UnknownScheme (local_scheme_of cfg))
      end
  end.

Definition get_version (version_scheme : scm_version -> outcome)
    (cfg : list (string * string)) (src : source) : outcome :=
  match src with
  | NotACheckout => Failed LookupError
  | Preformatted version => Version version
  | Checkout v => format_version version_scheme cfg v
  end.

End Scm.

(** The version of a distribution: the [version] keyword when given,
    otherwise what setuptools_scm finds when [use_scm_version] is a
    configuration, otherwise none. *)
Definition dist_version (version_scheme : Scm.scm_version -> Scm.outcome)
    (kw : kwargs) (src : Scm.source) : option Scm.outcome :=
  match kw_lookup "version" kw with
  | Some (VStr s) => Some (Scm.Version s)
  | Some _ => None
  | None =>
      match kw_lookup "use_scm_version" kw with
      | Some (VDict cfg) => Some (Scm.get_version version_scheme cfg src)
      | _ => None
      end
  end.


(** * Properties *)

(** ** The script's control flow *)

Lemma remove_first_head (p : string) (l : list string) :
  remove_first p (p :: l) = l.
Proof. simpl. now rewrite String.eqb_refl. Qed.

Lemma world_eta (w : world) : MkWorld (fs w) (open_files w) (dists w) = w.
Proof. now destruct w. Qed.

(** On a readable text file the script closes the file and calls [setup]
    once, with the text that [read] returned. *)
Lemma setup_py_reads (w : world) (t : string) :
  fs w !! README = Some (RegularFile (Text t)) ->
  setup_py w =
    (Ok tt,
     MkWorld (fs w) (open_files w)
             (dists w ++ [setup_kwargs (universal_newlines t)])).
Proof.
  intros Hfile.
  unfold setup_py, bind, with_open_r, open_r, fh_read, setup, fh_close.
  rewrite Hfile. cbn [fs fh_name open_files dists read_data].
  rewrite Hfile. cbn [fs fh_name open_files dists read_data].
  now rewrite remove_first_head.
Qed.

(** Every run either calls [setup] exactly once and returns, or raises and
    leaves the world as it found it. *)
Lemma setup_py_outcome (w : world) :
  (exists ld, setup_py w =
     (Ok tt, MkWorld (fs w) (open_files w) (dists w ++ [setup_kwargs ld]))) \/
  (exists e, setup_py w = (Raise e, w)).
Proof.
  destruct (fs w !! README) as [[[t| |]|d|]|] eqn:Hfile.
  - left. exists (universal_newlines t). now apply setup_py_reads.
  - right. exists UnicodeDecodeError.
    unfold setup_py, bind, with_open_r, open_r, fh_read, fh_close.
    rewrite Hfile. cbn [fs fh_name open_files dists read_data].
    rewrite Hfile. cbn [fs fh_name open_files dists read_data].
    now rewrite remove_first_head, world_eta.
  - right. exists OSError.
    unfold setup_py, bind, with_open_r, open_r, fh_read, fh_close.
    rewrite Hfile. cbn [fs fh_name open_files dists read_data].
    rewrite Hfile. cbn [fs fh_name open_files dists read_data].
    now rewrite remove_first_head, world_eta.
  - right. exists (PermissionError README).
    unfold setup_py, bind, with_open_r, open_r. now rewrite Hfile.
  - right. exists (IsADirectoryError README).
    unfold setup_py, bind, with_open_r, open_r. now rewrite Hfile.
  - right. exists (FileNotFoundError README).
    unfold setup_py, bind, with_open_r, open_r. now rewrite Hfile.
Qed.

(** ** Newline translation *)

Lemma string_mem_cons (c c' : ascii) (s : string) :
  string_mem c (String c' s) = Ascii.eqb c c' || string_mem c s.
Proof. reflexivity. Qed.

Lemma universal_newlines_cons (c : ascii) (rest : string) :
  universal_newlines (String c rest) =
  if Ascii.eqb c CR then
    match rest with
    | String c' rest' =>
        if Ascii.eqb c' LF
        then String LF (universal_newlines rest')
        else String LF (universal_newlines rest)
    | EmptyString => String LF EmptyString
    end
  else String c (universal_newlines rest).
Proof. reflexivity. Qed.

Lemma LF_not_CR : Ascii.eqb CR LF = false.
Proof. reflexivity. Qed.

Lemma universal_newlines_no_cr (s : string) :
  string_mem CR s = false -> universal_newlines s = s.
Proof.
  induction s as [|c rest IH]; [easy|].
  rewrite string_mem_cons, universal_newlines_cons.
  intros H. apply orb_false_iff in H as [Hc Hrest].
  rewrite Ascii.eqb_sym in Hc. rewrite Hc. now rewrite IH.
Qed.

Lemma universal_newlines_drops_cr (s : string) :
  string_mem CR (universal_newlines s) = false.
Proof.
  assert (H : forall n s, String.length s <= n ->
                          string_mem CR (universal_newlines s) = false).
  { clear s. induction n as [|n IH]; intros [|c rest] Hlen;
      try reflexivity; try (cbn [String.length] in Hlen; lia).
    cbn [String.length] in Hlen. rewrite universal_newlines_cons.
    destruct (Ascii.eqb c CR) eqn:Hc.
    - destruct rest as [|c' rest']; [reflexivity|].
      cbn [String.length] in Hlen.
      destruct (Ascii.eqb c' LF); rewrite string_mem_cons, LF_not_CR;
        apply IH; cbn [String.length]; lia.
    - rewrite string_mem_cons, Ascii.eqb_sym, Hc. apply IH. lia. }
  now apply (H (String.length s)).
Qed.

(** ** The metadata *)

Section Metadata.

Variable long_description : string.

Local Abbreviation kw := (setup_kwargs long_description).

(** C1: the install-time dependencies are exactly beautifulsoup4, lxml and
    requests, and the call declares dependencies under no other keyword
    ([extras_require], [requires]). *)
Theorem C1_install_requires :
  kw_list "install_requires" kw = Some ["beautifulsoup4"; "lxml"; "requests"] /\
  kw_lookup "extras_require" kw = None /\
  kw_lookup "requires" kw = None.
Proof. repeat split. Qed.

(** C2: the scripts list has one entry, and it is the package name; both
    are "musicpal". *)
Theorem C2_script_named_by_package :
  exists n,
    kw_str "name" kw = Some n /\
    kw_list "scripts" kw = Some [n] /\
    n = "musicpal".
Proof. exists "musicpal". repeat split. Qed.

(** C3: the license keyword is "GNU GPLv3"; the classifiers hold the
    GPLv3 license classifier; the license keyword and every license
    classifier name the GNU licence and its version GPLv3. *)
Theorem C3_license_gplv3 :
  exists lic cls,
    kw_str "license" kw = Some lic /\
    kw_list "classifiers" kw = Some cls /\
    lic = "GNU GPLv3" /\
    In "License :: OSI Approved :: GNU General Public License v3 (GPLv3)" cls /\
    contains "GNU" lic = true /\ contains "GPLv3" lic = true /\
    forall c, In c cls -> String.prefix "License ::" c = true ->
              contains "GNU" c = true /\ contains "GPLv3" c = true.
Proof.
  eexists. eexists. split; [reflexivity|]. split; [reflexivity|].
  split; [reflexivity|]. split; [simpl; tauto|].
  split; [reflexivity|]. split; [reflexivity|].
  intros c Hin Hpre. simpl in Hin.
  destruct Hin as [<-|[<-|[<-|[]]]];
    try (vm_compute in Hpre; discriminate Hpre).
  split; reflexivity.
Qed.

(** C5: the classifiers hold "Operating System :: POSIX :: Linux". *)
Theorem C5_posix_linux :
  exists cls,
    kw_list "classifiers" kw = Some cls /\
    In "Operating System :: POSIX :: Linux" cls.
Proof. eexists. split; [reflexivity|]. simpl. tauto. Qed.

(** C6: the description keyword is the sentence that names the program a
    command line interface for remote controlling a Freecom MusicPal. *)
Theorem C6_description :
  kw_str "description" kw =
    Some "Command line interface for remote controlling a Freecom MusicPal".
Proof. reflexivity. Qed.

End Metadata.

(** ** The interpreter versions that [python_requires] admits *)

Lemma parse_python_requires :
  Specifier.parse ">=3.8" = Some (Specifier.Ge, [3; 8]).
Proof. reflexivity. Qed.

Lemma release_compare_3_8 (major minor micro : nat) :
  Specifier.release_compare [major; minor; micro] [3; 8] <> Datatypes.Lt <->
  3 < major \/ (major = 3 /\ 8 <= minor).
Proof.
  cbn [Specifier.release_compare].
  destruct (Nat.compare_spec major 3) as [Hm|Hm|Hm].
  - destruct (Nat.compare_spec minor 8) as [Hn|Hn|Hn].
    + destruct (Specifier.all_zero [micro]); split; (congruence || lia).
    + split; [congruence | lia].
    + split; [lia | congruence].
  - split; [congruence | lia].
  - split; [lia | congruence].
Qed.

(** C4: [python_requires] is ">=3.8"; an interpreter version is accepted
    exactly when it is 3.8 or later, and refused exactly when it is
    earlier. *)
Theorem C4_python_requires (ld : string) :
  kw_str "python_requires" (setup_kwargs ld) = Some ">=3.8" /\
  forall major minor micro,
    (python_ok (setup_kwargs ld) major minor micro = Some true <->
       3 < major \/ (major = 3 /\ 8 <= minor)) /\
    (python_ok (setup_kwargs ld) major minor micro = Some false <->
       major < 3 \/ (major = 3 /\ minor < 8)).
Proof.
  split; [reflexivity|].
  intros major minor micro.
  change (python_ok (setup_kwargs ld) major minor micro)
    with (Specifier.accepts ">=3.8" [major; minor; micro]).
  unfold Specifier.accepts. rewrite parse_python_requires.
  set (b := Specifier.holds Specifier.Ge
              (Specifier.release_compare [major; minor; micro] [3; 8])).
  assert (Hb : b = true <-> 3 < major \/ (major = 3 /\ 8 <= minor)).
  { rewrite <- (release_compare_3_8 major minor micro). unfold b.
    destruct (Specifier.release_compare [major; minor; micro] [3; 8]);
      cbn [Specifier.holds]; split; intros G;
      try reflexivity; try discriminate G; try (intros G'; discriminate G');
      exfalso; now apply G. }
  destruct b.
  - assert (3 < major \/ (major = 3 /\ 8 <= minor)) by now apply Hb.
    split; split; intros G; try reflexivity; try discriminate G; lia.
  - assert (~ (3 < major \/ (major = 3 /\ 8 <= minor)))
      by (intros HP; apply Hb in HP; discriminate HP).
    split; split; intros G; try reflexivity; try discriminate G; lia.
Qed.

(** ** Failure to open or read README.md *)

Definition empty_world : world := MkWorld ∅ [] [].

(** C8: when [open] or [read] raises [e] on README.md, the script raises
    [e] and the world is as before: the file is closed again and [setup]
    was not called, so no distribution was added. *)
Theorem C8_readme_failure_before_setup (w : world) (e : exn) :
  (fst (open_r README w) = Raise e \/
   exists fh w1, open_r README w = (Ok fh, w1) /\
                 fst (fh_read fh w1) = Raise e) ->
  setup_py w = (Raise e, w).
Proof.
  unfold setup_py, bind, with_open_r, open_r, fh_read, fh_close.
  destruct (fs w !! README) as [[d|d|]|] eqn:Hfile;
    cbn [fst fs fh_name open_files dists].
  - intros [Habs|(fh & w1 & Hopen & Hread)]; [discriminate Habs|].
    injection Hopen as <- <-.
    cbn [fst fs fh_name open_files dists] in Hread.
    rewrite Hfile in *. cbn [fst] in Hread. rewrite Hread.
    cbn [fs open_files dists].
    now rewrite remove_first_head, world_eta.
  - intros [Hopen|(fh & w1 & Habs & _)]; [|discriminate Habs].
    now injection Hopen as <-.
  - intros [Hopen|(fh & w1 & Habs & _)]; [|discriminate Habs].
    now injection Hopen as <-.
  - intros [Hopen|(fh & w1 & Habs & _)]; [|discriminate Habs].
    now injection Hopen as <-.
Qed.

Lemma C8_missing_readme_witness :
  (fst (open_r README empty_world) = Raise (FileNotFoundError README) \/
   exists fh w1, open_r README empty_world = (Ok fh, w1) /\
                 fst (fh_read fh w1) = Raise (FileNotFoundError README)) /\
  setup_py empty_world = (Raise (FileNotFoundError README), empty_world).
Proof.
  assert (H : fst (open_r README empty_world) = Raise (FileNotFoundError README))
    by reflexivity.
  split; [left; exact H|].
  apply (C8_readme_failure_before_setup empty_world
           (FileNotFoundError README)).
  left; exact H.
Defined.

(** ** The long description *)

Definition readme_crlf : string :=
  String "a" (String CR (String LF (String "b" EmptyString))).

Definition readme_lf : string :=
  String "a" (String LF (String "b" EmptyString)).

Definition world_crlf : world :=
  MkWorld {[ README := RegularFile (Text readme_crlf) ]} [] [].

(** C9, as stated, fails: for a README.md with a carriage return and line
    feed between [a] and [b], [setup] receives a long description with the
    line feed alone, which is not the file's contents. *)
Lemma C9_crlf_counterexample :
  fs world_crlf !! README = Some (RegularFile (Text readme_crlf)) /\
  exists kw,
    dists (snd (setup_py world_crlf)) = [kw] /\
    kw_str "long_description" kw = Some readme_lf /\
    Some readme_lf <> Some readme_crlf.
Proof.
  split; [reflexivity|].
  exists (setup_kwargs readme_lf).
  split; [reflexivity|]. split; [reflexivity|]. discriminate.
Qed.

(** C9, amended: when README.md holds text [t], [setup] is called with the
    long description that text-mode [read] returns, which is [t] with
    every carriage return and line feed pair and every lone carriage
    return replaced by a line feed; it is [t] itself when [t] has no
    carriage return; the content type is "text/markdown". *)
Theorem C9_long_description_text_mode (w : world) (t : string) :
  fs w !! README = Some (RegularFile (Text t)) ->
  exists kw,
    setup_py w = (Ok tt, MkWorld (fs w) (open_files w) (dists w ++ [kw])) /\
    kw_str "long_description" kw = Some (universal_newlines t) /\
    (string_mem CR t = false -> kw_str "long_description" kw = Some t) /\
    kw_str "long_description_content_type" kw = Some "text/markdown".
Proof.
  intros Hfile. exists (setup_kwargs (universal_newlines t)).
  split; [now apply setup_py_reads|].
  split; [reflexivity|]. split; [|reflexivity].
  intros Hcr. now rewrite (universal_newlines_no_cr t Hcr).
Qed.

Definition world_plain : world :=
  MkWorld {[ README := RegularFile (Text "musicpal") ]} [] [].

Lemma C9_plain_readme_witness :
  fs world_plain !! README = Some (RegularFile (Text "musicpal")) /\
  exists kw,
    setup_py world_plain =
      (Ok tt, MkWorld (fs world_plain) (open_files world_plain)
                      (dists world_plain ++ [kw])) /\
    kw_str "long_description" kw = Some (universal_newlines "musicpal") /\
    (string_mem CR "musicpal" = false ->
     kw_str "long_description" kw = Some "musicpal") /\
    kw_str "long_description_content_type" kw = Some "text/markdown".
Proof.
  assert (H : fs world_plain !! README = Some (RegularFile (Text "musicpal")))
    by reflexivity.
  split; [exact H|].
  exact (C9_long_description_text_mode world_plain "musicpal" H).
Defined.

Definition world_undecodable : world :=
  MkWorld {[ README := RegularFile Undecodable ]} [] [].

Example read_failure_closes_file :
  setup_py world_undecodable = (Raise UnicodeDecodeError, world_undecodable).
Proof. reflexivity. Qed.

(** ** The derived version *)



(** A version scheme for the examples: the version of the tag. *)
Definition tag_scheme (v : Scm.scm_version) : Scm.outcome :=
  Scm.Version (Scm.tag v).

(** Three commits after tag 1.2, at commit g1a2b3c4, with uncommitted
    changes. *)
Definition checkout_1_2 : Scm.scm_version :=
  Scm.MkScm "1.2" 3 (Some "g1a2b3c4") true "20240101" "20240101093000".

(** Without the script's [local_scheme], the default local scheme adds a
    local component to the same main part. *)
Example default_scheme_has_local :
  Scm.get_version tag_scheme [] (Scm.Checkout checkout_1_2)
  = Scm.Version "1.2+g1a2b3c4.d20240101".
Proof. reflexivity. Qed.

Example no_checkout_no_version (ld : string) :
  dist_version tag_scheme (setup_kwargs ld) Scm.NotACheckout
  = Some (Scm.Failed Scm.LookupError).
Proof. reflexivity. Qed.



(** * Further properties of the script *)

(** The whole run, read off the entry of README.md in the file system. *)
Lemma setup_py_by_readme (w : world) :
  setup_py w =
  match fs w !! README with
  | None => (Raise (FileNotFoundError README), w)
  | Some Directory => (Raise (IsADirectoryError README), w)
  | Some (Unreadable _) => (Raise (PermissionError README), w)
  | Some (RegularFile d) =>
      match read_data d with
      | Ok ld =>
          (Ok tt,
           MkWorld (fs w) (open_files w) (dists w ++ [setup_kwargs ld]))
      | Raise e => (Raise e, w)
      end
  end.
Proof.
  unfold setup_py, bind, with_open_r, open_r, fh_read, fh_close, setup.
  destruct (fs w !! README) as [[d|d|]|] eqn:Hfile; try reflexivity.
  cbn [fs fh_name open_files dists]. rewrite Hfile.
  cbn [fs fh_name open_files dists]. rewrite remove_first_head.
  destruct (read_data d); [reflexivity|]. now rewrite world_eta.
Qed.

Lemma universal_newlines_length (s : string) :
  String.length (universal_newlines s) <= String.length s.
Proof.
  assert (H : forall n s, String.length s <= n ->
                String.length (universal_newlines s) <= String.length s).
  { clear s. induction n as [|n IH]; intros [|c rest] Hlen;
      try (cbn; lia); cbn [String.length] in Hlen; try lia.
    rewrite universal_newlines_cons.
    destruct (Ascii.eqb c CR).
    - destruct rest as [|c' rest']; [cbn; lia|].
      cbn [String.length] in Hlen.
      destruct (Ascii.eqb c' LF); cbn [String.length].
      + assert (String.length (universal_newlines rest')
                <= String.length rest') by (apply IH; lia). lia.
      + assert (String.length (universal_newlines (String c' rest'))
                <= String.length (String c' rest'))
          by (apply IH; cbn [String.length]; lia).
        cbn [String.length] in *. lia.
    - cbn [String.length].
      assert (String.length (universal_newlines rest) <= String.length rest)
        by (apply IH; lia). lia. }
  now apply (H (String.length s)).
Qed.

(** Lines 5 and 6 on their own: the [with] block that yields the long
    description. *)
Definition read_readme : M string :=
  with_open_r README (fun fh => fh_read fh).

Lemma setup_py_after_read_readme :
  setup_py =
  (let* long_description := read_readme in
   setup (setup_kwargs long_description)).
Proof. reflexivity. Qed.

Lemma read_readme_by_entry (w : world) :
  read_readme w =
  (match fs w !! README with
   | None => Raise (FileNotFoundError README)
   | Some Directory => Raise (IsADirectoryError README)
   | Some (Unreadable _) => Raise (PermissionError README)
   | Some (RegularFile d) => read_data d
   end, w).
Proof.
  unfold read_readme, with_open_r, open_r, fh_read, fh_close.
  destruct (fs w !! README) as [[d|d|]|] eqn:Hfile; try reflexivity.
  cbn [fs fh_name open_files dists]. rewrite Hfile.
  cbn [fs fh_name open_files dists].
  now rewrite remove_first_head, world_eta.
Qed.

(** X1: the [with] block leaves the world as it found it, whether [read]
    returns or raises: it writes to no file and the file it opened is
    closed again, the other open files staying open. *)
Theorem read_readme_leaves_world (w : world) :
  snd (read_readme w) = w.
Proof. now rewrite read_readme_by_entry. Qed.

(** X2: a run calls [setup] at most once, after the distributions already
    recorded, which it keeps; what it passes is the script's keyword
    arguments for some long description. *)
Theorem setup_called_at_most_once (w : world) :
  exists calls,
    dists (snd (setup_py w)) = dists w ++ calls /\
    length calls <= 1 /\
    Forall (fun kw => exists ld, kw = setup_kwargs ld) calls.
Proof.
  rewrite setup_py_by_readme.
  assert (Hnone : exists calls,
            dists w = dists w ++ calls /\ length calls <= 1 /\
            Forall (fun kw => exists ld, kw = setup_kwargs ld) calls).
  { exists []. rewrite app_nil_r. repeat split; [cbn; lia|constructor]. }
  destruct (fs w !! README) as [[d|d|]|]; cbn [snd]; try exact Hnone.
  destruct (read_data d) as [ld|e]; cbn [snd dists]; [|exact Hnone].
  exists [setup_kwargs ld]. repeat split; [cbn; lia|].
  constructor; [now exists ld|constructor].
Qed.

(** X3: [setup] is called exactly when README.md is a readable regular
    file whose bytes decode to text. *)
Theorem setup_called_iff_readme_is_text (w : world) :
  (exists kw, dists (snd (setup_py w)) = dists w ++ [kw]) <->
  (exists t, fs w !! README = Some (RegularFile (Text t))).
Proof.
  rewrite setup_py_by_readme.
  assert (Hno : forall kw, dists w <> dists w ++ [kw]).
  { intros kw Heq. apply (f_equal (@length kwargs)) in Heq.
    rewrite length_app in Heq. cbn in Heq. lia. }
  destruct (fs w !! README) as [[[t| |]|d|]|]; cbn [read_data snd dists].
  1: split; intros _; [now exists t | now eexists].
  all: split; [intros [kw H]; now apply Hno in H | intros [t H]; discriminate H].
Qed.

(** X4: the contents of README.md reach the call through the
    [long_description] keyword alone: under every other keyword the call
    passes the same value, or none, whatever was read. *)
Theorem readme_affects_long_description_only (ld1 ld2 k : string) :
  k <> "long_description" ->
  kw_lookup k (setup_kwargs ld1) = kw_lookup k (setup_kwargs ld2).
Proof.
  intros Hk. unfold setup_kwargs. cbn [kw_lookup].
  repeat match goal with
         | |- context [String.eqb k ?s] =>
             destruct (String.eqb_spec k s); [try reflexivity; contradiction|]
         end.
  reflexivity.
Qed.

Lemma readme_affects_long_description_only_witness :
  "install_requires" <> "long_description" /\
  kw_lookup "install_requires" (setup_kwargs "one") =
  kw_lookup "install_requires" (setup_kwargs "two").
Proof.
  assert (H : "install_requires" <> "long_description") by discriminate.
  split; [exact H|].
  exact (readme_affects_long_description_only "one" "two" "install_requires" H).
Defined.

Definition world_cr_only : world :=
  MkWorld {[ README := RegularFile (Text (String "x" (String CR "y"))) ]}
          ["other.txt"] [].

(** X5: the long description handed to [setup] never holds a carriage
    return and is never longer than the text of README.md. *)
Theorem long_description_has_no_cr (w : world) (t : string) :
  fs w !! README = Some (RegularFile (Text t)) ->
  exists ld,
    dists (snd (setup_py w)) = dists w ++ [setup_kwargs ld] /\
    kw_str "long_description" (setup_kwargs ld) = Some ld /\
    string_mem CR ld = false /\
    String.length ld <= String.length t.
Proof.
  intros Hfile. exists (universal_newlines t).
  rewrite setup_py_by_readme, Hfile. cbn [read_data snd dists].
  repeat split.
  - apply universal_newlines_drops_cr.
  - apply universal_newlines_length.
Qed.

Lemma long_description_has_no_cr_witness :
  fs world_cr_only !! README
    = Some (RegularFile (Text (String "x" (String CR "y")))) /\
  exists ld,
    dists (snd (setup_py world_cr_only))
      = dists world_cr_only ++ [setup_kwargs ld] /\
    kw_str "long_description" (setup_kwargs ld) = Some ld /\
    string_mem CR ld = false /\
    String.length ld <= String.length (String "x" (String CR "y")).
Proof.
  assert (H : fs world_cr_only !! README
              = Some (RegularFile (Text (String "x" (String CR "y")))))
    by reflexivity.
  split; [exact H|].
  exact (long_description_has_no_cr world_cr_only _ H).
Defined.





(** X8: once README.md holds a long description that an earlier run
    produced, a run passes that text on unchanged. *)
Theorem long_description_round_trip (w : world) (t : string) :
  setup_py
    (MkWorld (<[README := RegularFile (Text (universal_newlines t))]> (fs w))
             (open_files w) (dists w))
  = (Ok tt,
     MkWorld (<[README := RegularFile (Text (universal_newlines t))]> (fs w))
             (open_files w)
             (dists w ++ [setup_kwargs (universal_newlines t)])).
Proof.
  rewrite setup_py_by_readme. cbn [fs open_files dists].
  rewrite lookup_insert_eq. cbn [read_data].
  now rewrite (universal_newlines_no_cr _ (universal_newlines_drops_cr t)).
Qed.

(** X9: whether an interpreter is admitted by [python_requires] does not
    depend on its micro version. *)
Theorem python_ok_ignores_micro (ld : string) (major minor micro micro' : nat) :
  python_ok (setup_kwargs ld) major minor micro =
  python_ok (setup_kwargs ld) major minor micro'.
Proof.
  change (Specifier.accepts ">=3.8" [major; minor; micro] =
          Specifier.accepts ">=3.8" [major; minor; micro']).
  unfold Specifier.accepts. rewrite parse_python_requires. f_equal.
  cbn [Specifier.release_compare].
  destruct (Nat.compare major 3); try reflexivity.
  destruct (Nat.compare minor 8); try reflexivity.
  destruct (Specifier.all_zero [micro]), (Specifier.all_zero [micro']);
    reflexivity.
Qed.
